(** * Drawer.Section and the text-input adornment enumerations

    A shallow embedding of
    - [src/components/TextInput/Adornment/enums.tsx] (module [Adornment]) and
    - [src/components/Drawer/DrawerSection.tsx] (module [Drawer]),
    followed by the properties of the rendered tree. *)

From Stdlib Require Import Bool List String QArith Lia.
Import ListNotations.
Local Close Scope Q_scope.
Local Open Scope string_scope.

Set Implicit Arguments.
Set Warnings "-register-all".

(* ================================================================== *)
(** ** Adornment enumerations *)
(* ================================================================== *)

Module Adornment.

(** [export enum AdornmentType { Icon = 'icon', Affix = 'affix', Loading = 'loading' }] *)
Inductive AdornmentType : Set := Icon | Affix | Loading.

(** [export enum AdornmentSide { Right = 'right', Left = 'left' }] *)
Inductive AdornmentSide : Set := Right | Left.

(** [export enum InputMode { Outlined = 'outlined', Flat = 'flat' }] *)
Inductive InputMode : Set := Outlined | Flat.

(** A TypeScript string enum is, at run time, the string its member is
    initialised with. *)
Class StringEnum (E : Type) := {
  value   : E -> string;
  members : list E
}.

#[export] Instance AdornmentType_enum : StringEnum AdornmentType := {|
  value m := match m with
             | Icon => "icon"
             | Affix => "affix"
             | Loading => "loading"
             end;
  members := [Icon; Affix; Loading]
|}.

#[export] Instance AdornmentSide_enum : StringEnum AdornmentSide := {|
  value m := match m with
             | Right => "right"
             | Left => "left"
             end;
  members := [Right; Left]
|}.

#[export] Instance InputMode_enum : StringEnum InputMode := {|
  value m := match m with
             | Outlined => "outlined"
             | Flat => "flat"
             end;
  members := [Outlined; Flat]
|}.

(** The strings an enumeration can take, in declaration order. *)
Definition literals (E : Type) `{StringEnum E} : list string :=
  map value members.

(** Reading a string back as a member: the first member carrying it. *)
Definition of_string (E : Type) `{StringEnum E} (s : string) : option E :=
  find (fun m => String.eqb (value m) s) members.

(** Distinct members of an enumeration carry distinct strings. *)
Definition distinct_values (E : Type) `{StringEnum E} : Prop :=
  forall a b : E, value a = value b -> a = b.

(** Every inhabitant of the type is among the listed members, once. *)
Definition closed (E : Type) `{StringEnum E} : Prop :=
  (forall m : E, In m members) /\ NoDup (members (E := E)).

Arguments literals E {_}.
Arguments of_string E {_} s.
Arguments distinct_values E {_}.
Arguments closed E {_}.

End Adornment.

(* ================================================================== *)
(** ** Drawer.Section *)
(* ================================================================== *)

Module Drawer.

(** *** JavaScript values the component handles *)

(** A JS [number]. The component never computes with numbers, it only
    places literals ([40], [56], [16], [28], [0.54]) and forwards
    [titleMaxFontSizeMultiplier]; a literal is kept as the rational it
    denotes. *)
Definition number := Q.

(** [x?: string] and [x?: boolean]: [None] is [undefined]. Truthiness as
    [&&], [!] and [?:] see it. *)
Definition truthy_string (s : option string) : bool :=
  match s with
  | None => false
  | Some s => negb (String.eqb s "")
  end.

Definition truthy_bool (b : option bool) : bool :=
  match b with
  | None => false
  | Some b => b
  end.

(** *** Styles *)

Inductive StyleValue : Type :=
| SNum (n : number)
| SStr (s : string).

(** A style object: its own properties in insertion order. *)
Definition StyleObj := list (string * StyleValue).

(** React Native's [StyleProp<T>]: a style object, a falsy value, or an
    array of these, nested at will. *)
Inductive StyleProp : Type :=
| SPUndefined
| SPNull
| SPFalse
| SPObj (o : StyleObj)
| SPArr (l : list StyleProp).

(** How the host resolves a style prop ([StyleSheet.flatten]): falsy
    entries contribute nothing, an array contributes its entries from left
    to right. The result lists the property writes in the order they are
    made. *)
Fixpoint flattenStyle (s : StyleProp) : StyleObj :=
  match s with
  | SPObj o => o
  | SPArr l => flat_map flattenStyle l
  | SPUndefined | SPNull | SPFalse => []
  end.

(** [o[k]]: the last write to [k] is the one that stays; [None] for
    [undefined]. *)
Definition get (k : string) (o : StyleObj) : option StyleValue :=
  option_map snd (find (fun kv => String.eqb (fst kv) k) (rev o)).

Definition has_key (k : string) (o : StyleObj) : bool :=
  existsb (fun kv => String.eqb (fst kv) k) o.

(** The value an element ends up with for style property [k]. *)
Definition effective (k : string) (s : StyleProp) : option StyleValue :=
  get k (flattenStyle s).

(** *** Theme *)

(** Modelled from the spec: the theme type, declared in [../../types] and
    not among the files at hand. A theme exposes a version flag (legacy or
    current generation), a colour palette of named semantic colours and a
    font table of named semantic text styles; the records keep the entries
    [DrawerSection] reads. A font is the style object that [{ ...font }]
    spreads. *)
Record ThemeColors : Type := {
  onSurfaceVariant : string;
  text : string
}.

Record ThemeFonts : Type := {
  titleSmall : StyleObj;
  medium : StyleObj
}.

Record InternalTheme : Type := {
  isV3 : bool;
  colors : ThemeColors;
  fonts : ThemeFonts
}.

(** *** Imports *)

(** The [color] package: [color(s)], [.alpha(a)], [.rgb()], [.string()]. *)
Class ColorLib : Type := {
  Color : Type;
  color : string -> Color;
  Color_alpha : number -> Color -> Color;
  Color_rgb : Color -> Color;
  Color_string : Color -> string
}.

(** [../../core/theming]: [useInternalTheme(themeOverrides)] reads the
    theme of the enclosing provider and merges the overrides into it.
    [ThemeContext] is what the provider holds at the time of the render. *)
Class Theming : Type := {
  ThemeContext : Type;
  ThemeProp : Type;
  useInternalTheme : ThemeContext -> option ThemeProp -> InternalTheme
}.

(** [../../styles/themes/v3/tokens]: the one token read here. *)
Class Tokens : Type := {
  MD3Colors_neutralVariant50 : string
}.

Section Component.

Context {CL : ColorLib} {TH : Theming} {TK : Tokens}.

(** [children: React.ReactNode] as handed in by the caller, and the
    remaining [View] props collected by [...rest]. The component forwards
    both without looking inside. *)
Variables (Content ViewRest : Type).

(** *** Render tree *)

Record ViewProps : Type := {
  view_style : StyleProp;
  view_rest : option ViewRest
}.

Record TextProps : Type := {
  variant : string;
  numberOfLines : number;
  text_style : StyleProp;
  maxFontSizeMultiplier : option number
}.

Record DividerProps : Type := {
  horizontalInset : option bool;
  bold : option bool;
  divider_style : StyleProp;
  divider_theme : InternalTheme
}.

(** What can stand between JSX tags: the falsy results of [&&]
    ([undefined], [false], the empty string), a string, the caller's
    content, or one of the three elements the component creates. *)
Inductive Node : Type :=
| NUndefined
| NFalse
| NString (s : string)
| NContent (c : Content)
| NView (p : ViewProps) (kids : list Node)
| NText (p : TextProps) (kids : list Node)
| NDivider (p : DividerProps).

(** *** Props *)

Record Props : Type := {
  title : option string;
  children : Content;
  showDivider : option bool;
  titleMaxFontSizeMultiplier : option number;
  style : StyleProp;
  theme : option ThemeProp;
  enableCustomStyle : option bool;
  rest : ViewRest
}.

(** *** [const styles = StyleSheet.create({...})] *)

Definition styles_container : StyleObj := [("marginBottom", SNum 4%Q)].

Definition styles_titleContainer : StyleObj :=
  [("height", SNum 40%Q); ("justifyContent", SStr "center")].

Definition styles_v3TitleContainer : StyleObj := [("height", SNum 56%Q)].

Definition styles_divider : StyleObj := [("marginTop", SNum 4%Q)].

Definition styles_v3Divider : StyleObj :=
  [("backgroundColor", SStr MD3Colors_neutralVariant50)].

(** *** The constants resolved at the top of the function body *)

(** [isV3 ? theme.colors.onSurfaceVariant
         : color(theme.colors.text).alpha(0.54).rgb().string()] *)
Definition titleColor (theme : InternalTheme) : string :=
  if isV3 theme
  then onSurfaceVariant (colors theme)
  else Color_string (Color_rgb (Color_alpha 0.54%Q (color (text (colors theme))))).

(** [isV3 && !enableCustomStyle ? 28 : 16] *)
Definition titleMargin (theme : InternalTheme) (enableCustomStyle : option bool)
  : number :=
  if isV3 theme && negb (truthy_bool enableCustomStyle) then 28%Q else 16%Q.

(** [isV3 ? theme.fonts.titleSmall : theme.fonts.medium] *)
Definition font (theme : InternalTheme) : StyleObj :=
  if isV3 theme then titleSmall (fonts theme) else medium (fonts theme).

(** *** [&&] in JSX *)

(** [title && n]: a falsy [title] is the result itself. *)
Definition title_and (title : option string) (n : Node) : Node :=
  match title with
  | None => NUndefined
  | Some s => if String.eqb s "" then NString s else n
  end.

(** [b && n] for a boolean [b]. *)
Definition bool_and (b : bool) (n : Node) : Node :=
  if b then n else NFalse.

(** [b && o] inside a style array. *)
Definition style_and (b : bool) (o : StyleObj) : StyleProp :=
  if b then SPObj o else SPFalse.

(** [{title}] as a child. *)
Definition title_child (title : option string) : Node :=
  match title with
  | None => NUndefined
  | Some s => NString s
  end.

(** *** The elements *)

(** The [<Text>] label, source lines 100-113. *)
Definition titleLabel (theme : InternalTheme) (p : Props) : Node :=
  NText
    {| variant := if truthy_bool (enableCustomStyle p)
                  then "titleMedium" else "titleSmall";
       numberOfLines := 1%Q;
       text_style :=
         SPArr [ SPObj [ ("color", SStr (titleColor theme));
                         ("marginLeft",
                          SNum (titleMargin theme (enableCustomStyle p))) ];
                 style_and (negb (truthy_bool (enableCustomStyle p)))
                           (font theme) ];
       maxFontSizeMultiplier := titleMaxFontSizeMultiplier p |}
    [ title_child (title p) ].

(** The title [<View>], source lines 91-115. *)
Definition titleContainer (theme : InternalTheme) (p : Props) : Node :=
  NView
    {| view_style :=
         SPArr [ SPObj styles_titleContainer;
                 if isV3 theme && negb (truthy_bool (enableCustomStyle p))
                 then SPObj styles_v3TitleContainer
                 else SPObj [("height", SNum 40%Q)] ];
       view_rest := None |}
    [ title_and (title p) (titleLabel theme p) ].

(** The [<Divider>], source lines 119-123. Spreading
    [isV3 && { horizontalInset: !enableCustomStyle, bold: true }] sets
    the two props on a current-generation theme and nothing otherwise. *)
Definition divider (theme : InternalTheme) (p : Props) : Node :=
  NDivider
    {| horizontalInset :=
         if isV3 theme
         then Some (negb (truthy_bool (enableCustomStyle p))) else None;
       bold := if isV3 theme then Some true else None;
       divider_style :=
         SPArr [ SPObj styles_divider;
                 style_and (isV3 theme) styles_v3Divider ];
       divider_theme := theme |}.

(** [showDivider = true] in the parameter list: the default replaces
    [undefined] only. *)
Definition showDivider_or_default (p : Props) : bool :=
  match showDivider p with
  | None => true
  | Some b => b
  end.

(** The tree returned for a resolved theme, source lines 88-126. *)
Definition render (theme : InternalTheme) (p : Props) : Node :=
  NView
    {| view_style := SPArr [ SPObj styles_container; style p ];
       view_rest := Some (rest p) |}
    [ title_and (title p) (titleContainer theme p);
      NContent (children p);
      bool_and (showDivider_or_default p) (divider theme p) ].

(** [DrawerSection(props)], rendered below a provider holding [ctx]. *)
Definition DrawerSection (ctx : ThemeContext) (p : Props) : Node :=
  let theme := useInternalTheme ctx (theme p) in
  render theme p.

(** *** Reading a rendered tree *)

(** The children of an element, in order. *)
Definition slots (n : Node) : list Node :=
  match n with
  | NView _ kids | NText _ kids => kids
  | _ => []
  end.

(** The three positions of the section's root: what [title && ...] left,
    the caller's content, what [showDivider && ...] left. *)
Definition titleSlot (tree : Node) : option Node := nth_error (slots tree) 0.
Definition contentSlot (tree : Node) : option Node := nth_error (slots tree) 1.
Definition dividerSlot (tree : Node) : option Node := nth_error (slots tree) 2.

(** The title container, when the title slot holds one. *)
Definition title_container_of (tree : Node) : option ViewProps :=
  match titleSlot tree with
  | Some (NView vp _) => Some vp
  | _ => None
  end.

(** The label inside the title container. *)
Definition title_label_of (tree : Node) : option TextProps :=
  match titleSlot tree with
  | Some (NView _ (NText tp _ :: _)) => Some tp
  | _ => None
  end.

(** The divider, when the divider slot holds one. *)
Definition divider_of (tree : Node) : option DividerProps :=
  match dividerSlot tree with
  | Some (NDivider dp) => Some dp
  | _ => None
  end.

Definition is_view (n : Node) : bool :=
  match n with NView _ _ => true | _ => false end.

Definition is_text (n : Node) : bool :=
  match n with NText _ _ => true | _ => false end.

Definition is_divider (n : Node) : bool :=
  match n with NDivider _ => true | _ => false end.

(** How many nodes of the tree satisfy [f]. The caller's content is a leaf:
    the section neither creates nor inspects what is inside it. *)
Fixpoint count (f : Node -> bool) (n : Node) : nat :=
  (if f n then 1 else 0) +
  match n with
  | NView _ kids | NText _ kids => list_sum (map (count f) kids)
  | _ => 0
  end.

(** [p] with the [title] prop left out. *)
Definition without_title (p : Props) : Props :=
  {| title := None;
     children := children p;
     showDivider := showDivider p;
     titleMaxFontSizeMultiplier := titleMaxFontSizeMultiplier p;
     style := style p;
     theme := theme p;
     enableCustomStyle := enableCustomStyle p;
     rest := rest p |}.

(** The children of the title container, when there is one. *)
Definition title_container_kids (tree : Node) : option (list Node) :=
  match titleSlot tree with
  | Some (NView _ kids) => Some kids
  | _ => None
  end.

(** The children of the label inside the title container. *)
Definition title_label_kids (tree : Node) : option (list Node) :=
  match titleSlot tree with
  | Some (NView _ (NText _ kids :: _)) => Some kids
  | _ => None
  end.

(** [p] with [showDivider] passed as [v] ([None]: left out). *)
Definition with_showDivider (v : option bool) (p : Props) : Props :=
  {| title := title p;
     children := children p;
     showDivider := v;
     titleMaxFontSizeMultiplier := titleMaxFontSizeMultiplier p;
     style := style p;
     theme := theme p;
     enableCustomStyle := enableCustomStyle p;
     rest := rest p |}.

(** [p] with [enableCustomStyle] passed as [v] ([None]: left out). *)
Definition with_enableCustomStyle (v : option bool) (p : Props) : Props :=
  {| title := title p;
     children := children p;
     showDivider := showDivider p;
     titleMaxFontSizeMultiplier := titleMaxFontSizeMultiplier p;
     style := style p;
     theme := theme p;
     enableCustomStyle := v;
     rest := rest p |}.

(** A label with its variant and the font entry of its style array (the
    second entry) blanked; other nodes as they are. *)
Definition blank_variant_and_font (n : Node) : Node :=
  match n with
  | NText tp kids =>
      NText {| variant := "";
               numberOfLines := numberOfLines tp;
               text_style :=
                 match text_style tp with
                 | SPArr (own :: _ :: more) => SPArr (own :: SPUndefined :: more)
                 | s => s
                 end;
               maxFontSizeMultiplier := maxFontSizeMultiplier tp |}
            kids
  | _ => n
  end.

(** The whole tree, with only the title label's variant and font entry
    blanked: the root and its props, the title container and its props, the
    label's other props and children, the content and the divider stay. *)
Definition modulo_label_variant_and_font (tree : Node) : Node :=
  match tree with
  | NView vp (NView cp kids :: more) =>
      NView vp (NView cp (map blank_variant_and_font kids) :: more)
  | _ => tree
  end.

(** *** Object identity and the surroundings of a render *)

(** Evaluating the function body creates objects: every object literal,
    every array literal and every element is a new object each time, while
    the members of [styles], the theme and what the caller passes are
    existing objects handed on by reference. A [Ref] names a created
    object. *)
Definition Ref := nat.

(** A style value together with the identity of what carries it. *)
Inductive RStyle : Type :=
| RFalse
| RShared (o : StyleObj)                (* a member of [styles] *)
| RFresh (id : Ref) (o : StyleObj)      (* an object literal *)
| RCaller (s : StyleProp)               (* the caller's [style] *)
| RArr (id : Ref) (l : list RStyle).    (* an array literal *)

(** A render tree together with the identities of its elements. An
    element's [Ref] stands for the element and its props object. *)
Inductive RNode : Type :=
| RNUndefined
| RNFalse
| RNString (s : string)
| RNContent (c : Content)
| RNView (id : Ref) (st : RStyle) (rst : option ViewRest) (kids : list RNode)
| RNText (id : Ref) (vr : string) (lines : number) (st : RStyle)
         (mult : option number) (kids : list RNode)
| RNDivider (id : Ref) (inset bld : option bool) (st : RStyle)
            (thm : InternalTheme).

(** What surrounds a render: the state of the enclosing theme provider and
    the allocator, here the next unused [Ref]. *)
Record World : Type := {
  provider : ThemeContext;
  next_ref : Ref
}.

(** A step of the body: it may read and change the surroundings. *)
Definition Render (A : Type) : Type := World -> A * World.

Definition ret (A : Type) (a : A) : Render A := fun w => (a, w).

Definition bind (A B : Type) (c : Render A) (k : A -> Render B) : Render B :=
  fun w => let (a, w') := c w in k a w'.

(** Creating an object. *)
Definition fresh : Render Ref :=
  fun w => (next_ref w,
            {| provider := provider w; next_ref := S (next_ref w) |}).

(** [useInternalTheme(themeOverrides)] as a step: it reads the provider. *)
Definition useInternalTheme_step (overrides : option ThemeProp)
  : Render InternalTheme :=
  fun w => (useInternalTheme (provider w) overrides, w).

(** The tree with the identities forgotten. *)
Fixpoint style_structure (s : RStyle) : StyleProp :=
  match s with
  | RFalse => SPFalse
  | RShared o => SPObj o
  | RFresh _ o => SPObj o
  | RCaller s => s
  | RArr _ l => SPArr (map style_structure l)
  end.

Fixpoint structure (n : RNode) : Node :=
  match n with
  | RNUndefined => NUndefined
  | RNFalse => NFalse
  | RNString s => NString s
  | RNContent c => NContent c
  | RNView _ st rst kids =>
      NView {| view_style := style_structure st; view_rest := rst |}
            (map structure kids)
  | RNText _ vr lines st mult kids =>
      NText {| variant := vr; numberOfLines := lines;
               text_style := style_structure st;
               maxFontSizeMultiplier := mult |}
            (map structure kids)
  | RNDivider _ inset bld st thm =>
      NDivider {| horizontalInset := inset; bold := bld;
                  divider_style := style_structure st;
                  divider_theme := thm |}
  end.

(** The objects of a tree that the render created. *)
Fixpoint style_refs (s : RStyle) : list Ref :=
  match s with
  | RFresh id _ => [id]
  | RArr id l => id :: flat_map style_refs l
  | RFalse | RShared _ | RCaller _ => []
  end.

Fixpoint refs (n : RNode) : list Ref :=
  match n with
  | RNView id st _ kids => id :: (style_refs st ++ flat_map refs kids)%list
  | RNText id _ _ st _ kids => id :: (style_refs st ++ flat_map refs kids)%list
  | RNDivider id _ _ st _ => id :: style_refs st
  | RNUndefined | RNFalse | RNString _ | RNContent _ => []
  end.

(** *** The function body, step by step *)

Notation "x <- c ;; k" := (bind c (fun x => k))
  (at level 61, c at next level, right associativity).

(** [title && c]: nothing of [c] is evaluated for a falsy [title]. *)
Definition title_and_step (title : option string) (c : Render RNode)
  : Render RNode :=
  match title with
  | None => ret RNUndefined
  | Some s => if String.eqb s "" then ret (RNString s) else c
  end.

(** [b && c] for a boolean [b]. *)
Definition bool_and_step (b : bool) (c : Render RNode) : Render RNode :=
  if b then c else ret RNFalse.

(** The [<Text>] label, source lines 100-113: the style array, the colour
    and margin object, the copy of the font unless custom style is on, the
    element. *)
Definition titleLabel_step (theme : InternalTheme) (p : Props) : Render RNode :=
  arr <- fresh ;;
  own <- fresh ;;
  fnt <- (if negb (truthy_bool (enableCustomStyle p))
          then (cp <- fresh ;; ret (RFresh cp (font theme)))
          else ret RFalse) ;;
  el <- fresh ;;
  ret (RNText el
         (if truthy_bool (enableCustomStyle p) then "titleMedium" else "titleSmall")
         1%Q
         (RArr arr
            [ RFresh own
                [ ("color", SStr (titleColor theme));
                  ("marginLeft", SNum (titleMargin theme (enableCustomStyle p))) ];
              fnt ])
         (titleMaxFontSizeMultiplier p)
         [ match title p with
           | None => RNUndefined
           | Some s => RNString s
           end ]).

(** The title [<View>], source lines 91-115: the style array, then
    [styles.v3TitleContainer] itself or a new [{ height: 40 }], the label,
    the element. *)
Definition titleContainer_step (theme : InternalTheme) (p : Props)
  : Render RNode :=
  arr <- fresh ;;
  second <- (if isV3 theme && negb (truthy_bool (enableCustomStyle p))
             then ret (RShared styles_v3TitleContainer)
             else (h <- fresh ;; ret (RFresh h [("height", SNum 40%Q)]))) ;;
  label <- title_and_step (title p) (titleLabel_step theme p) ;;
  el <- fresh ;;
  ret (RNView el (RArr arr [RShared styles_titleContainer; second]) None [label]).

(** The [<Divider>], source lines 119-123: on a current-generation theme
    the object that is spread into the props (its two properties are
    copied, the object itself goes nowhere), the style array, the element. *)
Definition divider_step (theme : InternalTheme) (p : Props) : Render RNode :=
  spread <- (if isV3 theme then (o <- fresh ;; ret (Some o)) else ret None) ;;
  arr <- fresh ;;
  el <- fresh ;;
  ret (RNDivider el
         (if isV3 theme
          then Some (negb (truthy_bool (enableCustomStyle p))) else None)
         (if isV3 theme then Some true else None)
         (RArr arr [ RShared styles_divider;
                     if isV3 theme then RShared styles_v3Divider else RFalse ])
         theme).

(** The returned tree, source lines 88-126: the root's style array, the
    title block, the divider block, the root element. *)
Definition render_step (theme : InternalTheme) (p : Props) : Render RNode :=
  arr <- fresh ;;
  t <- title_and_step (title p) (titleContainer_step theme p) ;;
  d <- bool_and_step (showDivider_or_default p) (divider_step theme p) ;;
  el <- fresh ;;
  ret (RNView el (RArr arr [RShared styles_container; RCaller (style p)])
         (Some (rest p))
         [t; RNContent (children p); d]).

(** One invocation of [DrawerSection(props)] in the surroundings it finds,
    with the surroundings it leaves. *)
Definition DrawerSection_step (p : Props) : Render RNode :=
  theme <- useInternalTheme_step (theme p) ;;
  render_step theme p.

End Component.

Arguments NUndefined {Content ViewRest}.
Arguments NFalse {Content ViewRest}.
Arguments NString {Content ViewRest} s.
Arguments NContent {Content ViewRest} c.
Arguments NDivider {Content ViewRest} p.
Arguments is_view {Content ViewRest} n.
Arguments is_text {Content ViewRest} n.
Arguments is_divider {Content ViewRest} n.
Arguments RNUndefined {Content ViewRest}.
Arguments RNFalse {Content ViewRest}.
Arguments RNString {Content ViewRest} s.
Arguments RNContent {Content ViewRest} c.

End Drawer.

(* ================================================================== *)
(** ** A concrete environment *)
(* ================================================================== *)

(** One way to fill in the imports, and a few themes and props, on which the
    statements below are exercised. *)
Module Sample.

Import Drawer.

(** Colours as a CSS colour string with an alpha channel beside it. *)
#[export] Instance sample_color : ColorLib := {|
  Color := string * number;
  color s := (s, 1%Q);
  Color_alpha a c := (fst c, a);
  Color_rgb c := c;
  Color_string c := "rgba(" ++ fst c ++ ")"
|}.

(** The provider holds a theme; an override, when given, takes its place. *)
#[export] Instance sample_theming : Theming := {|
  ThemeContext := InternalTheme;
  ThemeProp := InternalTheme;
  useInternalTheme ctx overrides :=
    match overrides with
    | Some t => t
    | None => ctx
    end
|}.

#[export] Instance sample_tokens : Tokens := {|
  MD3Colors_neutralVariant50 := "rgba(121, 116, 126, 1)"
|}.

Definition sample_fonts : ThemeFonts := {|
  titleSmall := [("fontFamily", SStr "System"); ("fontWeight", SStr "500");
                 ("letterSpacing", SNum 0.1%Q); ("lineHeight", SNum 20%Q);
                 ("fontSize", SNum 14%Q)];
  medium := [("fontFamily", SStr "sans-serif-medium");
             ("fontWeight", SStr "normal")]
|}.

Definition sample_colors : ThemeColors := {|
  onSurfaceVariant := "rgba(73, 69, 79, 1)";
  text := "#000000"
|}.

(** A current-generation and a legacy theme. *)
Definition md3 : InternalTheme :=
  {| isV3 := true; colors := sample_colors; fonts := sample_fonts |}.

Definition md2 : InternalTheme :=
  {| isV3 := false; colors := sample_colors; fonts := sample_fonts |}.

(** Props with string content and no further [View] props. *)
Definition props (title : option string) (showDivider enableCustomStyle : option bool)
  : Props string unit :=
  {| title := title;
     children := "items";
     showDivider := showDivider;
     titleMaxFontSizeMultiplier := None;
     style := SPUndefined;
     theme := None;
     enableCustomStyle := enableCustomStyle;
     rest := tt |}.

(** The same props with a theme override. *)
Definition props_with_theme (t : InternalTheme) (title : option string)
  : Props string unit :=
  {| title := title;
     children := "items";
     showDivider := None;
     titleMaxFontSizeMultiplier := Some 1.5%Q;
     style := SPObj [("marginTop", SNum 8%Q)];
     theme := Some t;
     enableCustomStyle := None;
     rest := tt |}.

(** Two surroundings: different provider themes, allocators at different
    points. *)
Definition world_md3 : World (TH := sample_theming) :=
  {| provider := md3; next_ref := 0 |}.

Definition world_md2 : World (TH := sample_theming) :=
  {| provider := md2; next_ref := 100 |}.

End Sample.

(* ================================================================== *)
(** ** Properties of the adornment enumerations *)
(* ================================================================== *)

Module AdornmentFacts.

Import Adornment.

Lemma AdornmentType_closed : closed AdornmentType.
Proof.
  split.
  - intros []; simpl; tauto.
  - repeat constructor; simpl; intuition discriminate.
Qed.

Lemma AdornmentSide_closed : closed AdornmentSide.
Proof.
  split.
  - intros []; simpl; tauto.
  - repeat constructor; simpl; intuition discriminate.
Qed.

Lemma InputMode_closed : closed InputMode.
Proof.
  split.
  - intros []; simpl; tauto.
  - repeat constructor; simpl; intuition discriminate.
Qed.

(** C9. The three enumerations are closed sets with the stated literals:
    [AdornmentType] is exactly Icon = "icon", Affix = "affix",
    Loading = "loading"; [AdornmentSide] is exactly Right = "right",
    Left = "left"; [InputMode] is exactly Outlined = "outlined",
    Flat = "flat". Every member has its literal, the literals of an
    enumeration are exactly the listed ones, every inhabitant is a listed
    member, and a string that is not one of the literals denotes no member. *)
Theorem enums_closed_with_literals :
  (value Icon = "icon" /\ value Affix = "affix" /\ value Loading = "loading") /\
  (value Right = "right" /\ value Left = "left") /\
  (value Outlined = "outlined" /\ value Flat = "flat") /\
  literals AdornmentType = ["icon"; "affix"; "loading"] /\
  literals AdornmentSide = ["right"; "left"] /\
  literals InputMode = ["outlined"; "flat"] /\
  closed AdornmentType /\ closed AdornmentSide /\ closed InputMode /\
  distinct_values AdornmentType /\
  distinct_values AdornmentSide /\
  distinct_values InputMode /\
  (forall s, of_string AdornmentType s <> None <-> In s ["icon"; "affix"; "loading"]) /\
  (forall s, of_string AdornmentSide s <> None <-> In s ["right"; "left"]) /\
  (forall s, of_string InputMode s <> None <-> In s ["outlined"; "flat"]).
Proof.
  assert (Hof : forall (E : Type) (SE : StringEnum E) s,
             of_string E s <> None <-> In s (literals E)).
  { intros E SE s. unfold of_string, literals. split.
    - intros Hn. destruct (find _ _) as [m|] eqn:Hf; [|congruence].
      apply find_some in Hf as [Hin Heq].
      apply String.eqb_eq in Heq. subst s. now apply in_map.
    - intros Hin Hnone. apply in_map_iff in Hin as (m & Hv & Hm).
      pose proof (find_none _ _ Hnone m Hm) as Hf. simpl in Hf.
      rewrite Hv, String.eqb_refl in Hf. discriminate. }
  repeat split; try reflexivity;
    try apply AdornmentType_closed; try apply AdornmentSide_closed;
    try apply InputMode_closed;
    try (intros [] []; simpl; intros; (reflexivity || discriminate));
    try (intros Hs; apply (Hof _ _ s) in Hs; exact Hs);
    try (intros Hs; apply (Hof _ _ s); exact Hs).
Qed.

End AdornmentFacts.

(* ================================================================== *)
(** ** Properties of Drawer.Section *)
(* ================================================================== *)

Module DrawerFacts.

Import Drawer.

(** *** Style lookup *)

Lemma find_existsb (A : Type) (f : A -> bool) (l : list A) :
  find f l = None <-> existsb f l = false.
Proof.
  induction l as [|a l IH]; simpl.
  - tauto.
  - destruct (f a); simpl; [split; discriminate | exact IH].
Qed.

Lemma existsb_rev_eq (A : Type) (f : A -> bool) (l : list A) :
  existsb f (rev l) = existsb f l.
Proof.
  induction l as [|a l IH]; simpl; [reflexivity|].
  rewrite existsb_app, IH. simpl.
  now rewrite orb_false_r, orb_comm.
Qed.

(** A property nobody writes reads as [undefined]. *)
Lemma get_no_key (k : string) (o : StyleObj) :
  has_key k o = false -> get k o = None.
Proof.
  unfold has_key, get. intros H.
  rewrite <- existsb_rev_eq in H.
  apply find_existsb in H. now rewrite H.
Qed.

(** Later writes win over earlier ones. *)
Lemma get_app (k : string) (a b : StyleObj) :
  get k (a ++ b)%list = match get k b with
                   | Some v => Some v
                   | None => get k a
                   end.
Proof.
  unfold get. rewrite rev_app_distr.
  induction (rev b) as [|[k' v'] r IH]; simpl; [reflexivity|].
  destruct (String.eqb k' k); simpl; [reflexivity | exact IH].
Qed.

(** A two-entry style array: the second entry is applied on top of the
    first. *)
Lemma effective_pair (k : string) (s1 s2 : StyleProp) :
  effective k (SPArr [s1; s2]) =
  match effective k s2 with
  | Some v => Some v
  | None => effective k s1
  end.
Proof.
  unfold effective. simpl. rewrite app_nil_r. apply get_app.
Qed.

Section Facts.

Context {CL : ColorLib} {TH : Theming} {TK : Tokens}.
Variables (Content ViewRest : Type).

Implicit Types (p : Props Content ViewRest) (n : Node Content ViewRest).
Implicit Types (ctx : ThemeContext) (th : InternalTheme).

(** *** [title && ...] *)

Lemma title_and_truthy (t : option string) n :
  truthy_string t = true -> title_and t n = n.
Proof.
  destruct t as [s|]; simpl; [|discriminate].
  now destruct (String.eqb s "").
Qed.

Lemma title_and_falsy (t : option string) n :
  truthy_string t = false -> is_view (title_and t n) = false.
Proof.
  destruct t as [s|]; simpl; [|reflexivity].
  now destruct (String.eqb s "").
Qed.

(** With a truthy title the title slot holds the container with the label
    in it. *)
Lemma titleSlot_truthy th p :
  truthy_string (title p) = true ->
  titleSlot (render th p) = Some (titleContainer th p) /\
  title_label_of (render th p) =
    match titleLabel th p with
    | NText tp _ => Some tp
    | _ => None
    end.
Proof.
  intros Ht. unfold title_label_of, titleSlot, render. simpl.
  rewrite (title_and_truthy _ _ Ht). simpl.
  rewrite (title_and_truthy _ _ Ht). simpl. now split.
Qed.

(** Nothing in the title block is a divider. *)
Lemma title_block_no_divider th p :
  count is_divider (title_and (title p) (titleContainer th p)) = 0.
Proof.
  unfold titleContainer, titleLabel.
  destruct (title p) as [s|]; simpl; [|reflexivity].
  destruct (String.eqb s ""); reflexivity.
Qed.

(** *** Determinism *)

(** Equal props and equal resolved themes give equal trees. *)
Lemma DrawerSection_same_inputs ctx1 ctx2 p1 p2 :
  title p1 = title p2 ->
  children p1 = children p2 ->
  showDivider p1 = showDivider p2 ->
  titleMaxFontSizeMultiplier p1 = titleMaxFontSizeMultiplier p2 ->
  style p1 = style p2 ->
  enableCustomStyle p1 = enableCustomStyle p2 ->
  rest p1 = rest p2 ->
  useInternalTheme ctx1 (theme p1) = useInternalTheme ctx2 (theme p2) ->
  DrawerSection ctx1 p1 = DrawerSection ctx2 p2.
Proof.
  intros Ht Hc Hd Hm Hs He Hr Hth.
  unfold DrawerSection. cbv zeta. rewrite Hth.
  generalize (useInternalTheme ctx2 (theme p2)). intros th.
  unfold render, titleContainer, titleLabel, divider, showDivider_or_default.
  now rewrite Ht, Hc, Hd, Hm, Hs, He, Hr.
Qed.

(** Unfolding one invocation down to the single steps. *)
Ltac run_body :=
  unfold DrawerSection_step, render_step, titleContainer_step,
    titleLabel_step, divider_step, title_and_step, bool_and_step,
    useInternalTheme_step, bind, fresh, ret, titleMargin.

(** Splitting on everything the body branches on. *)
Ltac body_cases p th :=
  destruct (title p) as [?s|]; [destruct (String.eqb s "")|];
  destruct (isV3 th);
  destruct (truthy_bool (enableCustomStyle p));
  destruct (showDivider_or_default p).

(** Forgetting the identities in the tree of one invocation leaves the tree
    [DrawerSection] describes, whatever the allocator held. *)
Lemma DrawerSection_step_structure p (w : World) :
  structure (fst (DrawerSection_step p w)) = DrawerSection (provider w) p.
Proof.
  unfold DrawerSection, render, titleContainer, titleLabel, divider,
    title_and, bool_and, style_and, title_child.
  run_body. cbv zeta.
  set (th := useInternalTheme (provider w) (theme p)).
  body_cases p th; reflexivity.
Qed.

(** An invocation leaves the provider as it found it. *)
Lemma DrawerSection_step_provider p (w : World) :
  provider (snd (DrawerSection_step p w)) = provider w.
Proof.
  run_body.
  set (th := useInternalTheme (provider w) (theme p)).
  body_cases p th; reflexivity.
Qed.

(** Every object in the returned tree was created by this invocation: its
    [Ref] was unused before and is used after. *)
Lemma DrawerSection_step_refs p (w : World) (r : Ref) :
  In r (refs (fst (DrawerSection_step p w))) ->
  next_ref w <= r < next_ref (snd (DrawerSection_step p w)).
Proof.
  run_body.
  set (th := useInternalTheme (provider w) (theme p)).
  body_cases p th; simpl; intuition lia.
Qed.

(** C1. Two invocations of [DrawerSection] with identical inputs (title,
    children, showDivider, titleMaxFontSizeMultiplier, style,
    enableCustomStyle, remaining props), in surroundings that may differ in
    everything but the theme they resolve to, return structurally identical
    trees. An invocation leaves the provider untouched, so rendering again
    in the surroundings the first invocation left gives the same structure
    once more, although every object of the second tree is a new one. *)
Theorem DrawerSection_structurally_deterministic (w1 w2 : World) p1 p2 :
  title p1 = title p2 ->
  children p1 = children p2 ->
  showDivider p1 = showDivider p2 ->
  titleMaxFontSizeMultiplier p1 = titleMaxFontSizeMultiplier p2 ->
  style p1 = style p2 ->
  enableCustomStyle p1 = enableCustomStyle p2 ->
  rest p1 = rest p2 ->
  useInternalTheme (provider w1) (theme p1)
    = useInternalTheme (provider w2) (theme p2) ->
  let r1 := DrawerSection_step p1 w1 in
  let r2 := DrawerSection_step p2 w2 in
  let again := DrawerSection_step p1 (snd r1) in
  structure (fst r1) = structure (fst r2) /\
  provider (snd r1) = provider w1 /\
  structure (fst again) = structure (fst r1) /\
  (forall r, In r (refs (fst r1)) -> ~ In r (refs (fst again))).
Proof.
  intros Ht Hc Hd Hm Hs He Hr Hth r1 r2 again. subst r1 r2 again.
  rewrite !DrawerSection_step_structure, DrawerSection_step_provider.
  split; [now apply DrawerSection_same_inputs|].
  split; [reflexivity|]. split; [reflexivity|].
  intros r Hin1 Hin2.
  apply DrawerSection_step_refs in Hin1, Hin2. lia.
Qed.

(** *** Title colour, margin, font and height *)

(** C2. The resolved title colour is the theme's onSurfaceVariant colour on
    a current-generation theme ([isV3] true) and the theme's text colour
    taken to alpha 0.54 on a legacy theme; no flag enters. Whenever a label
    is rendered, this colour is the [color] of the style object the label is
    given, and it is the colour the label ends up with as long as the theme
    font does not set a colour of its own. *)
Theorem titleColor_resolved ctx p :
  let th := useInternalTheme ctx (theme p) in
  let c := if isV3 th
           then onSurfaceVariant (colors th)
           else Color_string
                  (Color_rgb (Color_alpha 0.54%Q (color (text (colors th))))) in
  titleColor th = c /\
  (truthy_string (title p) = true ->
   exists tp o more,
     title_label_of (DrawerSection ctx p) = Some tp /\
     text_style tp = SPArr (SPObj o :: more) /\
     get "color" o = Some (SStr c) /\
     (has_key "color" (font th) = false ->
      effective "color" (text_style tp) = Some (SStr c))).
Proof.
  intros th c. split; [reflexivity|]. intros Ht.
  destruct (titleSlot_truthy th p Ht) as [_ Hl]. simpl in Hl.
  eexists _, _, _. split; [exact Hl|]. simpl.
  split; [reflexivity|]. split; [reflexivity|].
  intros Hk. rewrite effective_pair.
  destruct (truthy_bool (enableCustomStyle p)); simpl.
  - reflexivity.
  - unfold effective at 1. simpl. now rewrite (get_no_key _ _ Hk).
Qed.

(** C4. The title label's left margin is 28 exactly when the theme is
    current-generation and enableCustomStyle is not enabled, and 16
    otherwise: that is the value of the resolved margin, the [marginLeft] of
    the style object a rendered label is given, and the margin the label
    ends up with as long as the theme font sets no left margin itself. *)
Theorem titleMargin_resolved ctx p :
  let th := useInternalTheme ctx (theme p) in
  let m := if isV3 th && negb (truthy_bool (enableCustomStyle p))
           then 28%Q else 16%Q in
  titleMargin th (enableCustomStyle p) = m /\
  (m = 28%Q <-> isV3 th = true /\ truthy_bool (enableCustomStyle p) = false) /\
  (truthy_string (title p) = true ->
   exists tp o more,
     title_label_of (DrawerSection ctx p) = Some tp /\
     text_style tp = SPArr (SPObj o :: more) /\
     get "marginLeft" o = Some (SNum m) /\
     (has_key "marginLeft" (font th) = false ->
      effective "marginLeft" (text_style tp) = Some (SNum m))).
Proof.
  intros th m. split; [reflexivity|]. split.
  { subst m. destruct (isV3 th), (truthy_bool (enableCustomStyle p)); simpl;
      split; try tauto; try discriminate; intros [? ?]; discriminate. }
  intros Ht.
  destruct (titleSlot_truthy th p Ht) as [_ Hl]. simpl in Hl.
  eexists _, _, _. split; [exact Hl|]. simpl.
  split; [reflexivity|]. split; [reflexivity|].
  intros Hk. rewrite effective_pair. unfold titleMargin. subst m.
  destruct (truthy_bool (enableCustomStyle p)); simpl.
  - reflexivity.
  - unfold effective at 1. simpl. now rewrite (get_no_key _ _ Hk).
Qed.

(** C3. Whenever a title is present, the title container is emitted and
    its height is 56 exactly when the theme is current-generation and
    enableCustomStyle is not enabled, and 40 in every other case. *)
Theorem titleContainer_height ctx p :
  truthy_string (title p) = true ->
  let th := useInternalTheme ctx (theme p) in
  exists vp h,
    title_container_of (DrawerSection ctx p) = Some vp /\
    effective "height" (view_style vp) = Some (SNum h) /\
    h = (if isV3 th && negb (truthy_bool (enableCustomStyle p))
         then 56%Q else 40%Q) /\
    (h = 56%Q <-> isV3 th = true /\ truthy_bool (enableCustomStyle p) = false).
Proof.
  intros Ht th.
  destruct (titleSlot_truthy th p Ht) as [Hs _].
  unfold title_container_of, DrawerSection. cbv zeta. fold th. rewrite Hs.
  unfold titleContainer.
  destruct (isV3 th), (truthy_bool (enableCustomStyle p)); simpl;
    eexists _, _; (split; [reflexivity|]); (split; [reflexivity|]);
    (split; [reflexivity|]);
    split; try tauto; try discriminate; intros [? ?]; discriminate.
Qed.

(** C8. The resolved title font is the theme's titleSmall style on a
    current-generation theme and its medium style on a legacy theme. The
    label's style is the colour-and-margin object followed by that font, or
    by [false] when enableCustomStyle is enabled: then colour and margin are
    all the label is given, and otherwise every property of the font
    reaches the label. *)
Theorem titleFont_resolved ctx p :
  let th := useInternalTheme ctx (theme p) in
  let own := [("color", SStr (titleColor th));
              ("marginLeft", SNum (titleMargin th (enableCustomStyle p)))] in
  font th = (if isV3 th then titleSmall (fonts th) else medium (fonts th)) /\
  (truthy_string (title p) = true ->
   exists tp,
     title_label_of (DrawerSection ctx p) = Some tp /\
     text_style tp =
       SPArr [SPObj own;
              if truthy_bool (enableCustomStyle p)
              then SPFalse else SPObj (font th)] /\
     (truthy_bool (enableCustomStyle p) = true ->
      flattenStyle (text_style tp) = own) /\
     (truthy_bool (enableCustomStyle p) = false ->
      forall k v, get k (font th) = Some v ->
                  effective k (text_style tp) = Some v)).
Proof.
  intros th own. split; [reflexivity|]. intros Ht.
  destruct (titleSlot_truthy th p Ht) as [_ Hl]. simpl in Hl.
  eexists. split; [exact Hl|]. simpl.
  destruct (truthy_bool (enableCustomStyle p)); simpl.
  - split; [reflexivity|]. split; [reflexivity | discriminate].
  - split; [reflexivity|]. split; [discriminate|].
    intros _ k v Hk. rewrite effective_pair.
    unfold effective at 1. simpl. now rewrite Hk.
Qed.

(** *** The divider *)

(** C5. If showDivider is true or omitted, a divider is emitted after the
    children. On a current-generation theme it receives horizontalInset
    equal to the negation of enableCustomStyle, bold equal to true and the
    neutralVariant50 background tint; on a legacy theme it receives neither
    flag and no tint. *)
Theorem divider_emitted ctx p :
  showDivider p <> Some false ->
  let th := useInternalTheme ctx (theme p) in
  exists t dp,
    slots (DrawerSection ctx p) = [t; NContent (children p); NDivider dp] /\
    divider_of (DrawerSection ctx p) = Some dp /\
    count is_divider (DrawerSection ctx p) = 1 /\
    if isV3 th
    then horizontalInset dp = Some (negb (truthy_bool (enableCustomStyle p))) /\
         bold dp = Some true /\
         effective "backgroundColor" (divider_style dp)
           = Some (SStr MD3Colors_neutralVariant50)
    else horizontalInset dp = None /\
         bold dp = None /\
         effective "backgroundColor" (divider_style dp) = None /\
         flattenStyle (divider_style dp) = styles_divider.
Proof.
  intros Hd th.
  assert (Hshow : showDivider_or_default p = true).
  { unfold showDivider_or_default.
    destruct (showDivider p) as [[|]|]; congruence. }
  unfold DrawerSection, divider_of, dividerSlot. cbv zeta. fold th.
  unfold render. simpl. rewrite Hshow. simpl.
  eexists _, _. split; [reflexivity|]. split; [reflexivity|].
  split.
  { now rewrite title_block_no_divider. }
  destruct (isV3 th); simpl; repeat split; reflexivity.
Qed.

(** C6. If showDivider is false, the rendered output contains no divider
    node, for every theme and every combination of the other flags. *)
Theorem no_divider_when_hidden ctx p :
  showDivider p = Some false ->
  dividerSlot (DrawerSection ctx p) = Some NFalse /\
  divider_of (DrawerSection ctx p) = None /\
  count is_divider (DrawerSection ctx p) = 0.
Proof.
  intros Hd.
  unfold DrawerSection, divider_of, dividerSlot, render,
    showDivider_or_default. cbv zeta. rewrite Hd. simpl.
  repeat split.
  now rewrite title_block_no_divider.
Qed.

(** *** The title container *)

(** C7. If the title input is absent, the rendered output contains no
    title container, for every theme and every combination of showDivider
    and enableCustomStyle: the title slot holds [undefined], the root is the
    only view and there is no label. *)
Theorem no_title_container_without_title ctx p :
  title p = None ->
  titleSlot (DrawerSection ctx p) = Some NUndefined /\
  title_container_of (DrawerSection ctx p) = None /\
  title_label_of (DrawerSection ctx p) = None /\
  count is_view (DrawerSection ctx p) = 1 /\
  count is_text (DrawerSection ctx p) = 0.
Proof.
  intros Ht.
  unfold DrawerSection, title_container_of, title_label_of, titleSlot, render.
  cbv zeta. rewrite Ht. simpl.
  repeat split; destruct (showDivider_or_default p); reflexivity.
Qed.

(** C10. If the title input is the empty string, no title container is
    emitted, as when the title is absent: the check is on the truthiness of
    the string. The title slot holds the empty string itself, and the tree
    is otherwise the one rendered for the same props without a title. *)
Theorem no_title_container_for_empty_title ctx p :
  title p = Some "" ->
  titleSlot (DrawerSection ctx p) = Some (NString "") /\
  title_container_of (DrawerSection ctx p) = None /\
  title_label_of (DrawerSection ctx p) = None /\
  count is_view (DrawerSection ctx p) = 1 /\
  count is_text (DrawerSection ctx p) = 0 /\
  title_container_of (DrawerSection ctx (without_title p)) = None /\
  exists vp c d,
    DrawerSection ctx p = NView vp [NString ""; c; d] /\
    DrawerSection ctx (without_title p) = NView vp [NUndefined; c; d].
Proof.
  intros Ht.
  unfold DrawerSection, title_container_of, title_label_of, titleSlot, render,
    showDivider_or_default, divider.
  cbv zeta. rewrite Ht. simpl.
  repeat split; try (destruct (showDivider p) as [[|]|]; reflexivity).
  eexists _, _, _. split; reflexivity.
Qed.

(** *** The root container and the pass-through props *)

(** The root is always a [View] with three children, the caller's content
    unchanged in the middle; the remaining props are forwarded as they
    came; the caller's [style] is applied on top of [styles.container], so
    a property the caller sets wins and the bottom margin is 4 unless the
    caller sets one. *)
Theorem root_container ctx p :
  exists vp t d,
    DrawerSection ctx p = NView vp [t; NContent (children p); d] /\
    view_rest vp = Some (rest p) /\
    (forall k, effective k (view_style vp) =
               match effective k (style p) with
               | Some v => Some v
               | None => get k styles_container
               end) /\
    (has_key "marginBottom" (flattenStyle (style p)) = false ->
     effective "marginBottom" (view_style vp) = Some (SNum 4%Q)).
Proof.
  unfold DrawerSection, render. cbv zeta.
  eexists _, _, _. split; [reflexivity|]. simpl.
  split; [reflexivity|]. split.
  - intros k. now rewrite effective_pair.
  - intros Hk. rewrite effective_pair.
    unfold effective at 1. now rewrite (get_no_key _ _ Hk).
Qed.

(** *** The title block *)

(** A title container is emitted exactly when the title is a non-empty
    string, and an emitted container is never empty: its only child is the
    label, whose only child is the title text. *)
Theorem title_block_iff ctx p :
  (title_container_of (DrawerSection ctx p) <> None <->
   truthy_string (title p) = true) /\
  (forall vp,
     title_container_of (DrawerSection ctx p) = Some vp ->
     exists s tp,
       title p = Some s /\ s <> "" /\
       titleSlot (DrawerSection ctx p) = Some (NView vp [NText tp [NString s]])).
Proof.
  unfold DrawerSection, title_container_of, titleSlot, render, titleContainer,
    titleLabel. cbv zeta. simpl.
  destruct (title p) as [s|]; simpl.
  - destruct (String.eqb s "") eqn:E; simpl.
    + split; [split; [congruence | discriminate] | discriminate].
    + apply String.eqb_neq in E. split.
      * split; [reflexivity | discriminate].
      * intros vp Hvp. injection Hvp as <-.
        eexists _, _. repeat split; [exact E].
  - split; [split; [congruence | discriminate] | discriminate].
Qed.

(** The label of a rendered title: variant "titleMedium" with custom style
    enabled and "titleSmall" otherwise, one line, and the caller's
    [titleMaxFontSizeMultiplier] handed on unchanged (also when left out). *)
Theorem title_label_props ctx p :
  truthy_string (title p) = true ->
  exists tp s,
    title_label_of (DrawerSection ctx p) = Some tp /\
    variant tp = (if truthy_bool (enableCustomStyle p)
                  then "titleMedium" else "titleSmall") /\
    numberOfLines tp = 1%Q /\
    maxFontSizeMultiplier tp = titleMaxFontSizeMultiplier p /\
    title p = Some s /\
    title_label_kids (DrawerSection ctx p) = Some [NString s].
Proof.
  intros Ht. unfold DrawerSection. cbv zeta.
  set (th := useInternalTheme ctx (theme p)).
  destruct (titleSlot_truthy th p Ht) as [Hs Hl]. simpl in Hl.
  destruct (title p) as [s|] eqn:Es; [|discriminate].
  eexists _, s. split; [exact Hl|]. simpl. repeat split.
  unfold title_label_kids. rewrite Hs. unfold titleContainer.
  rewrite Es, (title_and_truthy _ _ Ht). unfold titleLabel.
  now rewrite Es.
Qed.

(** Whatever the theme and the custom-style flag, the title container
    keeps [styles.titleContainer] for every property but the height: its
    content stays centred. *)
Theorem titleContainer_only_height_overridden ctx p :
  truthy_string (title p) = true ->
  exists vp,
    title_container_of (DrawerSection ctx p) = Some vp /\
    effective "justifyContent" (view_style vp) = Some (SStr "center") /\
    (forall k, String.eqb "height" k = false ->
               effective k (view_style vp) = get k styles_titleContainer).
Proof.
  intros Ht. unfold DrawerSection, title_container_of. cbv zeta.
  set (th := useInternalTheme ctx (theme p)).
  destruct (titleSlot_truthy th p Ht) as [Hs _]. rewrite Hs.
  unfold titleContainer. eexists. split; [reflexivity|]. simpl.
  split.
  - destruct (isV3 th && negb (truthy_bool (enableCustomStyle p)));
      reflexivity.
  - intros k Hk. rewrite effective_pair.
    assert (Hnone : forall v, effective k (SPObj [("height", v)]) = None).
    { intros v. unfold effective, get. simpl. now rewrite Hk. }
    destruct (isV3 th && negb (truthy_bool (enableCustomStyle p)));
      unfold styles_v3TitleContainer; now rewrite Hnone.
Qed.

(** *** How many elements the section creates *)

(** The section creates one root view, one more view and one label exactly
    when the title is a non-empty string, and one divider exactly when
    [showDivider] is not [false]; never more. *)
Theorem element_counts ctx p :
  count is_view (DrawerSection ctx p) =
    (if truthy_string (title p) then 2 else 1) /\
  count is_text (DrawerSection ctx p) =
    (if truthy_string (title p) then 1 else 0) /\
  count is_divider (DrawerSection ctx p) =
    (if showDivider_or_default p then 1 else 0).
Proof.
  unfold DrawerSection, render, titleContainer, titleLabel, divider.
  cbv zeta. simpl.
  destruct (title p) as [s|]; simpl;
    [destruct (String.eqb s ""); simpl|];
    destruct (showDivider_or_default p); simpl; repeat split.
Qed.

(** *** The divider *)

(** An emitted divider is handed the resolved theme (the provider's theme
    with the override merged in, not the override alone) and keeps its top
    margin of 4 on either theme generation. *)
Theorem divider_theme_and_margin ctx p :
  showDivider p <> Some false ->
  exists dp,
    divider_of (DrawerSection ctx p) = Some dp /\
    divider_theme dp = useInternalTheme ctx (theme p) /\
    effective "marginTop" (divider_style dp) = Some (SNum 4%Q).
Proof.
  intros Hd.
  assert (Hshow : showDivider_or_default p = true).
  { unfold showDivider_or_default.
    destruct (showDivider p) as [[|]|]; congruence. }
  unfold DrawerSection, divider_of, dividerSlot, render. cbv zeta. simpl.
  rewrite Hshow. simpl. eexists. split; [reflexivity|]. simpl.
  split; [reflexivity|].
  now destruct (isV3 (useInternalTheme ctx (theme p))).
Qed.

(** *** Defaults *)

(** Leaving [showDivider] out renders what [showDivider = true] renders,
    and leaving [enableCustomStyle] out renders what
    [enableCustomStyle = false] renders. *)
Theorem omitted_flags_are_defaults ctx p :
  DrawerSection ctx (with_showDivider None p) =
  DrawerSection ctx (with_showDivider (Some true) p) /\
  DrawerSection ctx (with_enableCustomStyle None p) =
  DrawerSection ctx (with_enableCustomStyle (Some false) p).
Proof.
  split; reflexivity.
Qed.

(** *** What each part of the tree depends on *)

(** The title slot is fixed by the title, the custom-style flag, the
    font-scaling ceiling and the resolved theme; the divider slot by
    [showDivider], the truth value of the custom-style flag and the
    resolved theme. The caller's style, content and remaining props reach
    neither, the title does not reach the divider, and [showDivider] does
    not reach the title. *)
Theorem slots_depend_only_on ctx1 ctx2 p1 p2 :
  useInternalTheme ctx1 (theme p1) = useInternalTheme ctx2 (theme p2) ->
  (title p1 = title p2 ->
   enableCustomStyle p1 = enableCustomStyle p2 ->
   titleMaxFontSizeMultiplier p1 = titleMaxFontSizeMultiplier p2 ->
   titleSlot (DrawerSection ctx1 p1) = titleSlot (DrawerSection ctx2 p2)) /\
  (showDivider_or_default p1 = showDivider_or_default p2 ->
   truthy_bool (enableCustomStyle p1) = truthy_bool (enableCustomStyle p2) ->
   dividerSlot (DrawerSection ctx1 p1) = dividerSlot (DrawerSection ctx2 p2)).
Proof.
  intros Hth. unfold DrawerSection. cbv zeta. rewrite Hth.
  generalize (useInternalTheme ctx2 (theme p2)). intros th.
  unfold titleSlot, dividerSlot, render, titleContainer, titleLabel, divider.
  simpl. split.
  - intros Ht He Hm. now rewrite Ht, He, Hm.
  - intros Hd He. now rewrite Hd, He.
Qed.

(** On a legacy theme the custom-style flag changes the label's variant
    and font and nothing else: with these two blanked, the whole tree (the
    root and its props, the title container and its props, the label's line
    count, ceiling, colour and margin object and children, the content, the
    divider) is the same for every value of the flag. *)
Theorem legacy_custom_style_only_label ctx p (v : option bool) :
  isV3 (useInternalTheme ctx (theme p)) = false ->
  let t0 := DrawerSection ctx p in
  let t1 := DrawerSection ctx (with_enableCustomStyle v p) in
  modulo_label_variant_and_font t1 = modulo_label_variant_and_font t0 /\
  title_container_of t1 = title_container_of t0 /\
  dividerSlot t1 = dividerSlot t0 /\
  contentSlot t1 = contentSlot t0 /\
  option_map (fun tp => match text_style tp with
                        | SPArr (own :: _) => Some own
                        | _ => None
                        end) (title_label_of t1)
  = option_map (fun tp => match text_style tp with
                          | SPArr (own :: _) => Some own
                          | _ => None
                          end) (title_label_of t0).
Proof.
  intros Hv t0 t1. subst t0 t1.
  unfold modulo_label_variant_and_font, DrawerSection, title_container_of,
    title_label_of, titleSlot,
    dividerSlot, contentSlot, render, titleContainer, titleLabel, divider,
    titleMargin, with_enableCustomStyle.
  cbv zeta. simpl. rewrite Hv. simpl.
  repeat split;
    try (destruct (title p) as [s|]; simpl; [|reflexivity];
         destruct (String.eqb s ""); simpl; [reflexivity|]);
    try reflexivity.
Qed.

End Facts.

(** *** The statements at work on the sample environment *)

Import Sample.

(** Two providers holding different themes and allocators at different
    points, the same override: one structure. *)
Lemma DrawerSection_structurally_deterministic_witness :
  structure (fst (DrawerSection_step
                    (props_with_theme md2 (Some "Settings")) world_md3)) =
  structure (fst (DrawerSection_step
                    (props_with_theme md2 (Some "Settings")) world_md2)).
Proof.
  exact (proj1 (DrawerSection_structurally_deterministic world_md3 world_md2
                  (props_with_theme md2 (Some "Settings"))
                  (props_with_theme md2 (Some "Settings"))
                  eq_refl eq_refl eq_refl eq_refl eq_refl eq_refl eq_refl
                  eq_refl)).
Defined.

(** Legacy theme, title "Settings", defaults otherwise: the label's colour
    is the text colour at alpha 0.54. *)
Lemma titleColor_resolved_witness :
  exists tp,
    title_label_of (DrawerSection md2 (props (Some "Settings") None None))
      = Some tp /\
    effective "color" (text_style tp) =
      Some (SStr (Color_string (Color_alpha 0.54%Q (color "#000000")))).
Proof.
  pose proof (titleColor_resolved (TH := sample_theming) md2
                (props (Some "Settings") None None)) as H.
  cbv zeta in H. destruct H as [_ H].
  destruct (H eq_refl) as (tp & o & more & Hl & _ & _ & Heff).
  exists tp. split; [exact Hl | exact (Heff eq_refl)].
Defined.

(** Current-generation theme, no custom style: left margin 28. *)
Lemma titleMargin_resolved_witness :
  exists tp,
    title_label_of (DrawerSection md3 (props (Some "Settings") None (Some false)))
      = Some tp /\
    effective "marginLeft" (text_style tp) = Some (SNum 28%Q).
Proof.
  pose proof (titleMargin_resolved (TH := sample_theming) md3
                (props (Some "Settings") None (Some false))) as H.
  cbv zeta in H. destruct H as (_ & _ & H).
  destruct (H eq_refl) as (tp & o & more & Hl & _ & _ & Heff).
  exists tp. split; [exact Hl | exact (Heff eq_refl)].
Defined.

(** Current-generation theme with custom style: the container is 40 high. *)
Lemma titleContainer_height_witness :
  truthy_string (title (props (Some "Settings") None (Some true))) = true /\
  exists vp,
    title_container_of (DrawerSection md3 (props (Some "Settings") None (Some true)))
      = Some vp /\
    effective "height" (view_style vp) = Some (SNum 40%Q).
Proof.
  split; [reflexivity|].
  destruct (titleContainer_height (TH := sample_theming) md3
              (props (Some "Settings") None (Some true)) eq_refl)
    as (vp & h & Hc & Hh & Heq & _).
  exists vp. split; [exact Hc|]. rewrite Hh. now rewrite Heq.
Defined.

(** Current-generation theme with custom style: the label's style is colour
    and margin and nothing else. *)
Lemma titleFont_resolved_witness :
  exists tp,
    title_label_of (DrawerSection md3 (props (Some "Settings") None (Some true)))
      = Some tp /\
    flattenStyle (text_style tp) =
      [("color", SStr "rgba(73, 69, 79, 1)"); ("marginLeft", SNum 16%Q)].
Proof.
  pose proof (titleFont_resolved (TH := sample_theming) md3
                (props (Some "Settings") None (Some true))) as H.
  cbv zeta in H. destruct H as [_ H].
  destruct (H eq_refl) as (tp & Hl & _ & Hon & _).
  exists tp. split; [exact Hl | exact (Hon eq_refl)].
Defined.

(** Current-generation theme, showDivider omitted: an inset, bold divider. *)
Lemma divider_emitted_witness :
  showDivider (props (Some "Settings") None None) <> Some false /\
  exists dp,
    divider_of (DrawerSection md3 (props (Some "Settings") None None)) = Some dp /\
    horizontalInset dp = Some true /\ bold dp = Some true.
Proof.
  assert (Hd : showDivider (props (Some "Settings") None None) <> Some false)
    by discriminate.
  split; [exact Hd|].
  destruct (divider_emitted (TH := sample_theming) md3
              (props (Some "Settings") None None) Hd)
    as (t & dp & _ & Ho & _ & Hi & Hb & _).
  exists dp. repeat split; assumption.
Defined.

(** Legacy theme, showDivider false: no divider. *)
Lemma no_divider_when_hidden_witness :
  showDivider (props (Some "Settings") (Some false) None) = Some false /\
  count is_divider
    (DrawerSection md2 (props (Some "Settings") (Some false) None)) = 0.
Proof.
  split; [reflexivity|].
  apply (no_divider_when_hidden (TH := sample_theming) md2
           (props (Some "Settings") (Some false) None) eq_refl).
Defined.

(** No title, custom style on: no title container. *)
Lemma no_title_container_without_title_witness :
  title (props None (Some true) (Some true)) = None /\
  title_container_of (DrawerSection md3 (props None (Some true) (Some true)))
    = None.
Proof.
  split; [reflexivity|].
  apply (no_title_container_without_title (TH := sample_theming) md3
           (props None (Some true) (Some true)) eq_refl).
Defined.

(** The empty title: no title container. *)
Lemma no_title_container_for_empty_title_witness :
  title (props (Some "") None None) = Some "" /\
  title_container_of (DrawerSection md3 (props (Some "") None None)) = None.
Proof.
  split; [reflexivity|].
  apply (no_title_container_for_empty_title (TH := sample_theming) md3
           (props (Some "") None None) eq_refl).
Defined.

(** *** The scenarios of the specification, evaluated *)

(** Legacy theme, title "Settings", defaults otherwise. *)
Example scenario_A :
  let tree := DrawerSection md2 (props (Some "Settings") None None) in
  option_map (fun tp => effective "color" (text_style tp)) (title_label_of tree)
    = Some (Some (SStr "rgba(#000000)")) /\
  option_map (fun vp => effective "height" (view_style vp)) (title_container_of tree)
    = Some (Some (SNum 40%Q)) /\
  option_map (fun tp => effective "marginLeft" (text_style tp)) (title_label_of tree)
    = Some (Some (SNum 16%Q)).
Proof. repeat split. Qed.

(** Current-generation theme, title "Settings", enableCustomStyle false. *)
Example scenario_B :
  let tree := DrawerSection md3 (props (Some "Settings") None (Some false)) in
  option_map (fun tp => effective "marginLeft" (text_style tp)) (title_label_of tree)
    = Some (Some (SNum 28%Q)) /\
  option_map (fun vp => effective "height" (view_style vp)) (title_container_of tree)
    = Some (Some (SNum 56%Q)) /\
  option_map (@horizontalInset) (divider_of tree) = Some (Some true) /\
  option_map (@bold) (divider_of tree) = Some (Some true).
Proof. repeat split. Qed.

(** Current-generation theme, enableCustomStyle true. *)
Example scenario_C :
  let tree := DrawerSection md3 (props (Some "Settings") None (Some true)) in
  option_map (fun tp => effective "marginLeft" (text_style tp)) (title_label_of tree)
    = Some (Some (SNum 16%Q)) /\
  option_map (fun vp => effective "height" (view_style vp)) (title_container_of tree)
    = Some (Some (SNum 40%Q)) /\
  option_map (fun tp => effective "fontSize" (text_style tp)) (title_label_of tree)
    = Some None /\
  option_map (@variant) (title_label_of tree) = Some "titleMedium" /\
  option_map (@horizontalInset) (divider_of tree) = Some (Some false).
Proof. repeat split. Qed.

(** showDivider false on either theme. *)
Example scenario_D :
  count is_divider (DrawerSection md2 (props (Some "Settings") (Some false) None)) = 0 /\
  count is_divider (DrawerSection md3 (props None (Some false) (Some true))) = 0.
Proof. repeat split. Qed.

(** *** Further statements at work on the sample environment *)

(** A caller style that sets a top margin leaves the bottom margin at 4. *)
Lemma root_container_witness :
  exists vp t d,
    DrawerSection md3 (props_with_theme md2 (Some "Settings"))
      = NView vp [t; NContent "items"; d] /\
    effective "marginBottom" (view_style vp) = Some (SNum 4%Q) /\
    effective "marginTop" (view_style vp) = Some (SNum 8%Q).
Proof.
  destruct (root_container (TH := sample_theming) md3
              (props_with_theme md2 (Some "Settings")))
    as (vp & t & d & Htree & _ & Hall & Hmb).
  exists vp, t, d. split; [exact Htree|]. split.
  - exact (Hmb eq_refl).
  - rewrite Hall. reflexivity.
Defined.

(** A title of one space is a title. *)
Lemma title_block_iff_witness :
  title_container_of (DrawerSection md2 (props (Some " ") None None)) <> None.
Proof.
  apply (title_block_iff (TH := sample_theming) md2 (props (Some " ") None None)).
  reflexivity.
Defined.

(** The ceiling 1.5 is handed on; no custom style, so the small variant. *)
Lemma title_label_props_witness :
  truthy_string (title (props_with_theme md2 (Some "Settings"))) = true /\
  exists tp,
    title_label_of (DrawerSection md3 (props_with_theme md2 (Some "Settings")))
      = Some tp /\
    variant tp = "titleSmall" /\
    maxFontSizeMultiplier tp = Some 1.5%Q.
Proof.
  split; [reflexivity|].
  destruct (title_label_props (TH := sample_theming) md3
              (props_with_theme md2 (Some "Settings")) eq_refl)
    as (tp & s & Hl & Hv & _ & Hm & _).
  exists tp. repeat split; assumption.
Defined.

Lemma titleContainer_only_height_overridden_witness :
  truthy_string (title (props (Some "Settings") None None)) = true /\
  exists vp,
    title_container_of (DrawerSection md3 (props (Some "Settings") None None))
      = Some vp /\
    effective "justifyContent" (view_style vp) = Some (SStr "center") /\
    effective "marginLeft" (view_style vp) = None.
Proof.
  split; [reflexivity|].
  destruct (titleContainer_only_height_overridden (TH := sample_theming) md3
              (props (Some "Settings") None None) eq_refl)
    as (vp & Hc & Hj & Hk).
  exists vp. split; [exact Hc|]. split; [exact Hj|].
  rewrite (Hk "marginLeft" eq_refl). reflexivity.
Defined.

(** The provider holds the current-generation theme, the override is the
    legacy one: the divider gets the legacy theme. *)
Lemma divider_theme_and_margin_witness :
  showDivider (props_with_theme md2 None) <> Some false /\
  exists dp,
    divider_of (DrawerSection md3 (props_with_theme md2 None)) = Some dp /\
    divider_theme dp = md2.
Proof.
  assert (Hd : showDivider (props_with_theme md2 None) <> Some false)
    by discriminate.
  split; [exact Hd|].
  destruct (divider_theme_and_margin (TH := sample_theming) md3
              (props_with_theme md2 None) Hd) as (dp & Ho & Ht & _).
  exists dp. split; assumption.
Defined.

(** Different title, style and ceiling, the same divider. *)
Lemma slots_depend_only_on_witness :
  dividerSlot (DrawerSection md3 (props (Some "Settings") None None)) =
  dividerSlot (DrawerSection md2 (props_with_theme md3 None)).
Proof.
  apply (slots_depend_only_on (TH := sample_theming) md3 md2
           (props (Some "Settings") None None) (props_with_theme md3 None));
    reflexivity.
Defined.

Lemma legacy_custom_style_only_label_witness :
  modulo_label_variant_and_font
    (DrawerSection md2
       (with_enableCustomStyle (Some true) (props (Some "Settings") None None)))
  = modulo_label_variant_and_font
      (DrawerSection md2 (props (Some "Settings") None None)).
Proof.
  apply (legacy_custom_style_only_label (TH := sample_theming) md2
           (props (Some "Settings") None None) (Some true) eq_refl).
Defined.

End DrawerFacts.
